(** * The swing-trading score of the screener tab

    A shallow embedding of [getSwingTradingScore] and of the table body
    built by [results.map] in [src/components/ScreenerTab.tsx], with the
    properties the specification states about them.  The specification
    calls the first function [evaluate] and the second one [rank]. *)

From Stdlib Require Import ZArith QArith Qabs Lia.
From stdpp Require Import base list strings.

Local Open Scope Z_scope.

(** ** JavaScript numbers

    The fields of a screener result are TypeScript [number]s.  The score
    function only compares them with literals and with each other, and
    takes one absolute value, so a number is modelled by its value: a
    finite one is a rational (every finite double is one), and the three
    special values are kept because the comparisons treat them
    differently. *)

Inductive number : Type :=
  | NaN
  | NegInf
  | Finite (q : Q)
  | PosInf.

Module Js.

Definition Qlt_bool (x y : Q) : bool := negb (Qle_bool y x).

(** [a < b]: false as soon as one side is NaN. *)
Definition lt (a b : number) : bool :=
  match a, b with
  | NaN, _ | _, NaN => false
  | PosInf, _ | _, NegInf => false
  | NegInf, _ | _, PosInf => true
  | Finite x, Finite y => Qlt_bool x y
  end.

(** [a <= b]: false as soon as one side is NaN. *)
Definition le (a b : number) : bool :=
  match a, b with
  | NaN, _ | _, NaN => false
  | NegInf, _ | _, PosInf => true
  | PosInf, _ | _, NegInf => false
  | Finite x, Finite y => Qle_bool x y
  end.

Definition gt (a b : number) : bool := lt b a.
Definition ge (a b : number) : bool := le b a.

(** [Math.abs]. *)
Definition abs (a : number) : number :=
  match a with
  | NaN => NaN
  | NegInf | PosInf => PosInf
  | Finite x => Finite (Qabs x)
  end.

(** An integer literal of the source. *)
Definition lit (z : Z) : number := Finite (inject_Z z).

(** [Math.max] and [Math.min] are only applied to the score, which is an
    integer throughout (see [scoreAtLine72]). *)
Definition max (a b : Z) : Z := Z.max a b.
Definition min (a b : Z) : Z := Z.min a b.

End Js.

Declare Scope js_scope.
Delimit Scope js_scope with js.
Bind Scope js_scope with number.
Infix "<?" := Js.lt : js_scope.
Infix "<=?" := Js.le : js_scope.
Infix ">?" := Js.gt : js_scope.
Infix ">=?" := Js.ge : js_scope.
Notation "# z" := (Js.lit z) (at level 5, z at level 0, format "# z") : js_scope.

(** ** Data *)

(** Modelled from the spec: the interface [ScreenerResult] is declared in
    [services/IBService], which is not among the sources; its fields are
    the ones the component reads ([result.symbol], [result.price], ...),
    and the data model of the specification lists the same ones. *)
Record ScreenerResult : Type := {
  symbol : string;
  price : number;
  change : number;
  changePercent : number;
  volume : number;
  marketCap : number;
  pe : number;
  rsi : number;
  sma20 : number;
  sma50 : number;
}.

(** The object [getSwingTradingScore] returns:
    [{ score: number; signal: string; color: string }]. *)
Record SwingAnalysis : Type := {
  score : Z;
  signal : string;
  color : string;
}.

(** ** The score function *)

(** Lines 54-71: the local variable [score] after the last adjustment.
    It starts at the integer 50 and only integers are added to it, so its
    value is an integer; the additions are exact in double precision. *)
Definition scoreAtLine72 (result : ScreenerResult) : Z :=
  let score := 50 in
  (* RSI scoring *)
  let score :=
    if ((rsi result >=? #30) && (rsi result <=? #70))%js then score + 20
    else if (rsi result <? #30)%js then score + 30
    else score - 20 in
  (* Price vs moving averages *)
  let score := if (price result >? sma20 result)%js then score + 15 else score in
  let score := if (price result >? sma50 result)%js then score + 10 else score in
  let score := if (sma20 result >? sma50 result)%js then score + 15 else score in
  (* Volume *)
  let score :=
    if (volume result >? #1000000)%js then score + 10
    else if (volume result >? #500000)%js then score + 5
    else score in
  (* Price momentum *)
  let score :=
    if (Js.abs (changePercent result) >? #2)%js then score + 10 else score in
  score.

(** Lines 74-89: the pair of the local variables [signal] and [color]. *)
Definition determineSignal (score : Z) : string * string :=
  let signal := "HOLD" in
  let color := "text-neutral-400" in
  if score >=? 80 then ("STRONG BUY", "text-success-400")
  else if score >=? 65 then ("BUY", "text-success-300")
  else if score <=? 35 then ("SELL", "text-danger-400")
  else if score <=? 50 then ("WEAK", "text-warning-400")
  else (signal, color).

(** Lines 53-92.  The signal is determined from the score before it is
    clamped; the clamped score is what is returned (line 91). *)
Definition getSwingTradingScore (result : ScreenerResult) : SwingAnalysis :=
  let score := scoreAtLine72 result in
  let '(signal, color) := determineSignal score in
  {| score := Js.max 0 (Js.min 100 score); signal := signal; color := color |}.

(** ** The result table *)

(** One [<tr>] of the table body (lines 239-293): its React key, the
    result it displays and the analysis whose signal and score fill the
    last cell. *)
Record Row : Type := {
  key : nat;
  shown : ScreenerResult;
  swingAnalysis : SwingAnalysis;
}.

(** Lines 235-295: [results.map((result, index) => ...)].  [Array.map]
    calls the function once per element, in index order, and collects
    the values in a new array. *)
Definition tableBody (results : list ScreenerResult) : list Row :=
  imap (fun index result =>
          let swingAnalysis := getSwingTradingScore result in
          {| key := index; shown := result; swingAnalysis := swingAnalysis |})
       results.

(** What the specification calls [rank]: the sequence of
    (snapshot, score result) pairs that the rows carry. *)
Definition rank (results : list ScreenerResult)
  : list (ScreenerResult * SwingAnalysis) :=
  (fun row => (shown row, swingAnalysis row)) <$> tableBody results.

(** [result] with its [price] replaced, every other field kept. *)
Definition withPrice (p : number) (result : ScreenerResult) : ScreenerResult :=
  {| symbol := symbol result; price := p; change := change result;
     changePercent := changePercent result; volume := volume result;
     marketCap := marketCap result; pe := pe result; rsi := rsi result;
     sma20 := sma20 result; sma50 := sma50 result |}.

(** ** The specification's reading *)

Module Spec.

(** The five signals of the specification. *)
Inductive Signal : Type := STRONG_BUY | BUY | HOLD | WEAK | SELL.

(** The string the component shows for each of them. *)
Definition label (s : Signal) : string :=
  match s with
  | STRONG_BUY => "STRONG BUY"
  | BUY => "BUY"
  | HOLD => "HOLD"
  | WEAK => "WEAK"
  | SELL => "SELL"
  end.

(** Step 7: the ordered threshold chain. *)
Definition classify (score : Z) : Signal :=
  if 80 <=? score then STRONG_BUY
  else if 65 <=? score then BUY
  else if score <=? 35 then SELL
  else if score <=? 50 then WEAK
  else HOLD.

(** Step 2: momentum-range adjustment. *)
Definition rsiAdjustment (r : number) : Z :=
  if ((#30 <=? r) && (r <=? #70))%js then 20
  else if (r <? #30)%js then 30
  else -20.

(** Step 3: the three trend adjustments, each on its own. *)
Definition bonus (b : bool) (points : Z) : Z := if b then points else 0.

(** Step 4: liquidity bracket, first match only. *)
Definition volumeAdjustment (v : number) : Z :=
  if (v >? #1000000)%js then 10
  else if (v >? #500000)%js then 5
  else 0.

(** Step 6. *)
Definition clamp (x : Z) : Z :=
  if x <? 0 then 0 else if 100 <? x then 100 else x.

(** Steps 1-5: the additive score. *)
Definition additive (s : ScreenerResult) : Z :=
  50
  + rsiAdjustment (rsi s)
  + bonus (price s >? sma20 s)%js 15
  + bonus (price s >? sma50 s)%js 10
  + bonus (sma20 s >? sma50 s)%js 15
  + volumeAdjustment (volume s)
  + bonus (Js.abs (changePercent s) >? #2)%js 10.

End Spec.

(** ** The worked examples of the specification *)

Definition snapshot (r p s20 s50 v c : Z) : ScreenerResult :=
  {| symbol := "SYM"; price := #p; change := #0; changePercent := #c;
     volume := #v; marketCap := #0; pe := #0; rsi := #r;
     sma20 := #s20; sma50 := #s50 |}%js.

(** A result whose rsi is not a number and that earns no bonus. *)
Definition nanRsiResult : ScreenerResult :=
  {| symbol := "SYM"; price := #90; change := #0; changePercent := #0;
     volume := #100000; marketCap := #0; pe := #0; rsi := NaN;
     sma20 := #95; sma50 := #100 |}%js.

(** ** The other cells and the state of the component *)

(** Unary minus on numbers. *)
Definition negate (a : number) : number :=
  match a with
  | NaN => NaN
  | NegInf => PosInf
  | Finite x => Finite (- x)
  | PosInf => NegInf
  end.

(** [result] with its [volume] replaced, every other field kept. *)
Definition withVolume (v : number) (result : ScreenerResult) : ScreenerResult :=
  {| symbol := symbol result; price := price result; change := change result;
     changePercent := changePercent result; volume := v;
     marketCap := marketCap result; pe := pe result; rsi := rsi result;
     sma20 := sma20 result; sma50 := sma50 result |}.

(** [result] with its [changePercent] replaced, every other field kept. *)
Definition withChangePercent (c : number) (result : ScreenerResult)
  : ScreenerResult :=
  {| symbol := symbol result; price := price result; change := change result;
     changePercent := c; volume := volume result;
     marketCap := marketCap result; pe := pe result; rsi := rsi result;
     sma20 := sma20 result; sma50 := sma50 result |}.

(** Lines 272-273: the colour class of the RSI cell. *)
Definition rsiCellColor (result : ScreenerResult) : string :=
  if (rsi result >? #70)%js then "text-danger-400"
  else if (rsi result <? #30)%js then "text-success-400"
  else "text-neutral-100".

(** Lines 9-19: the filter object; the inputs keep their text as typed. *)
Record Filters : Type := {
  minPrice : string;
  maxPrice : string;
  minVolume : string;
  minMarketCap : string;
  maxPE : string;
  minRSI : string;
  maxRSI : string;
  priceAboveSMA20 : bool;
  priceAboveSMA50 : bool;
}.

Definition initialFilters : Filters :=
  {| minPrice := ""; maxPrice := ""; minVolume := ""; minMarketCap := "";
     maxPE := ""; minRSI := ""; maxRSI := "";
     priceAboveSMA20 := false; priceAboveSMA50 := false |}.

(** Lines 7-19: the three [useState] cells of the component. *)
Record State : Type := {
  results : list ScreenerResult;
  loading : bool;
  filters : Filters;
}.

Definition initialState : State :=
  {| results := []; loading := false; filters := initialFilters |}.

(** The state after an earlier run that returned two results. *)
Definition shownState : State :=
  {| results := [snapshot 45 110 100 95 2000000 3;
                 snapshot 75 90 95 100 100000 0];
     loading := false; filters := initialFilters |}.

(** What becomes of the promise of [IBService.getScreenerResults]: it is
    resolved, it is rejected, or it stays pending.  The service is not
    among the sources: the functions below take it as an argument. *)
Inductive Outcome : Type :=
  | Resolved (data : list ScreenerResult)
  | Rejected (reason : string)
  | Pending.

(** What [runScreener] does to the outside: calls of the state setters
    and of [console.error]. *)
Inductive Effect : Type :=
  | SetLoading (value : bool)
  | SetResults (data : list ScreenerResult)
  | ConsoleError (message : string) (reason : string).

(** Lines 25-35: [runScreener], as the effects it performs in order.  The
    [try] block stops at a rejected promise, [catch] logs it, and
    [finally] runs on both paths; as long as the promise is pending the
    function is suspended at [await] and nothing follows the first
    setter. *)
Definition runScreener (getScreenerResults : Filters -> Outcome) (st : State)
  : list Effect :=
  SetLoading true
  :: match getScreenerResults (filters st) with
     | Resolved data => [SetResults data; SetLoading false]
     | Rejected reason =>
         [ConsoleError "Failed to run screener:" reason; SetLoading false]
     | Pending => []
     end.

(** A setter replaces its cell; logging leaves the state alone. *)
Definition perform (st : State) (e : Effect) : State :=
  match e with
  | SetLoading value =>
      {| results := results st; loading := value; filters := filters st |}
  | SetResults data =>
      {| results := data; loading := loading st; filters := filters st |}
  | ConsoleError _ _ => st
  end.

Definition performAll (st : State) (effects : list Effect) : State :=
  foldl perform st effects.

(** The reasons passed to [console.error], in order. *)
Definition logged (effects : list Effect) : list string :=
  omap (fun e => match e with ConsoleError _ reason => Some reason | _ => None end)
       effects.

(** Lines 21-23: the effect run once after the first render. *)
Definition mount (getScreenerResults : Filters -> Outcome) : State :=
  performAll initialState (runScreener getScreenerResults initialState).

(** Lines 211-299: what the results card shows under its header. *)
Inductive TableView : Type :=
  | Placeholders (keys : list nat)
  | Rows (rows : list Row).

(** Lines 211-217: [[...Array(5)].map((_, i) => ...)] while loading, the
    table otherwise. *)
Definition tableView (st : State) : TableView :=
  if loading st then Placeholders (imap (fun i _ => i) (replicate 5 ()))
  else Rows (tableBody (results st)).

(** Line 209: the number in the header of the card. *)
Definition headerCount (st : State) : nat := length (results st).

(** Line 99: the Run Screener button is disabled while loading. *)
Definition runDisabled (st : State) : bool := loading st.

(** Splits on every condition the goal branches on, keeping the outcome of
    each as a hypothesis. *)
Ltac branch :=
  repeat match goal with
         | |- context [if ?b then _ else _] => destruct b eqn:?
         end.

(** ** Comparisons of numbers *)

Lemma Qlt_bool_iff (x y : Q) : Js.Qlt_bool x y = true <-> (x < y)%Q.
Proof.
  unfold Js.Qlt_bool. rewrite negb_true_iff, <- not_true_iff_false, Qle_bool_iff.
  split; [apply Qnot_le_lt | apply Qlt_not_le].
Qed.

Lemma Qlt_bool_false (x y : Q) : Js.Qlt_bool x y = false <-> (y <= x)%Q.
Proof.
  unfold Js.Qlt_bool. rewrite negb_false_iff. apply Qle_bool_iff.
Qed.

(** Whatever is above something that [p1] is not above, is above all that
    [p1] is above.  It holds with NaN and the infinities as well. *)
Lemma gt_carries_over (p1 p2 a b : number) :
  (p1 >? a)%js = false -> (p2 >? a)%js = true ->
  (p1 >? b)%js = true -> (p2 >? b)%js = true.
Proof.
  unfold Js.gt.
  destruct p1 as [| |x1|], p2 as [| |x2|], a as [| |xa|], b as [| |xb|];
    simpl; try congruence.
  rewrite Qlt_bool_false, !Qlt_bool_iff. intros H1 H2 H3.
  eapply Qlt_trans; [exact H3|]. eapply Qle_lt_trans; eassumption.
Qed.

(** Two numbers of which neither is NaN are comparable. *)
Lemma lt_of_not_ge (a b : number) :
  a <> NaN -> b <> NaN -> (a >=? b)%js = false -> (a <? b)%js = true.
Proof.
  unfold Js.ge.
  destruct a as [| |x|], b as [| |y|]; simpl; try congruence.
  intros _ _. unfold Js.Qlt_bool. intros ->. reflexivity.
Qed.

Lemma gt_of_not_le (a b : number) :
  a <> NaN -> b <> NaN -> (a <=? b)%js = false -> (a >? b)%js = true.
Proof.
  unfold Js.gt.
  destruct a as [| |x|], b as [| |y|]; simpl; try congruence.
  intros _ _. unfold Js.Qlt_bool. intros ->. reflexivity.
Qed.

(** ** Unfolding the returned object *)

Lemma score_eq (s : ScreenerResult) :
  score (getSwingTradingScore s) = Js.max 0 (Js.min 100 (scoreAtLine72 s)).
Proof. unfold getSwingTradingScore. destruct (determineSignal _). reflexivity. Qed.

Lemma signal_eq (s : ScreenerResult) :
  signal (getSwingTradingScore s) = fst (determineSignal (scoreAtLine72 s)).
Proof. unfold getSwingTradingScore. destruct (determineSignal _). reflexivity. Qed.

Lemma color_eq (s : ScreenerResult) :
  color (getSwingTradingScore s) = snd (determineSignal (scoreAtLine72 s)).
Proof. unfold getSwingTradingScore. destruct (determineSignal _). reflexivity. Qed.

(** The score before clamping, as the sum of the specification. *)
Lemma scoreAtLine72_additive (s : ScreenerResult) :
  scoreAtLine72 s = Spec.additive s.
Proof.
  unfold scoreAtLine72, Spec.additive, Spec.rsiAdjustment,
    Spec.volumeAdjustment, Spec.bonus, Js.ge.
  branch; lia.
Qed.

Lemma clamp_max_min (x : Z) : Js.max 0 (Js.min 100 x) = Spec.clamp x.
Proof. unfold Js.max, Js.min, Spec.clamp. branch; lia. Qed.

Lemma scoreAtLine72_range (s : ScreenerResult) :
  30 <= scoreAtLine72 s <= 140 /\ exists k, scoreAtLine72 s = 5 * k.
Proof.
  unfold scoreAtLine72.
  branch; (split; [lia|]);
    match goal with |- exists k, ?n = _ => exists (n / 5); reflexivity end.
Qed.

Lemma determineSignal_classify (x : Z) :
  fst (determineSignal x) = Spec.label (Spec.classify x).
Proof.
  unfold determineSignal, Spec.classify. rewrite !Z.geb_leb. branch; reflexivity.
Qed.

(** Clamping does not move a score across a threshold. *)
Lemma classify_clamp (x : Z) :
  Spec.classify (Js.max 0 (Js.min 100 x)) = Spec.classify x.
Proof.
  unfold Spec.classify, Js.max, Js.min.
  branch; solve [reflexivity | exfalso; lia].
Qed.

Lemma label_inj (a b : Spec.Signal) : Spec.label a = Spec.label b -> a = b.
Proof. destruct a, b; simpl; congruence. Qed.

Lemma rank_fmap (results : list ScreenerResult) :
  rank results = (fun s => (s, getSwingTradingScore s)) <$> results.
Proof.
  unfold rank, tableBody. rewrite fmap_imap.
  apply (imap_const (fun s => (s, getSwingTradingScore s))).
Qed.

(** ** The examples of section 8 *)

Example example_1 :
  getSwingTradingScore (snapshot 45 110 100 95 2000000 3)
  = {| score := 100; signal := "STRONG BUY"; color := "text-success-400" |}.
Proof. reflexivity. Qed.

Example example_2 :
  getSwingTradingScore (snapshot 75 90 95 100 100000 0)
  = {| score := 30; signal := "SELL"; color := "text-danger-400" |}.
Proof. reflexivity. Qed.

Example example_3 :
  getSwingTradingScore (snapshot 25 50 48 52 600000 1)
  = {| score := 100; signal := "STRONG BUY"; color := "text-success-400" |}.
Proof. reflexivity. Qed.

Example example_4 :
  getSwingTradingScore (snapshot 75 110 100 105 600000 1)
  = {| score := 60; signal := "HOLD"; color := "text-neutral-400" |}.
Proof. reflexivity. Qed.

(** The ends of the healthy rsi range are inside it. *)
Example rsi_30_in_range : scoreAtLine72 (snapshot 30 90 95 100 100000 0) = 70.
Proof. reflexivity. Qed.

Example rsi_70_in_range : scoreAtLine72 (snapshot 70 90 95 100 100000 0) = 70.
Proof. reflexivity. Qed.

(** The two ends of the range of the sum before clamping. *)
Example lowest_sum : scoreAtLine72 (snapshot 75 90 95 100 100000 0) = 30.
Proof. reflexivity. Qed.

Example highest_sum : scoreAtLine72 (snapshot 25 110 100 95 2000000 3) = 140.
Proof. reflexivity. Qed.

(** ** The score *)

(** C1: the score that [getSwingTradingScore] returns is the clamp to
    [0,100] of 50 plus the rsi adjustment (+20 for 30 <= rsi <= 70, else
    +30 for rsi < 30, else -20), plus 15 if price > sma20, plus 10 if
    price > sma50, plus 15 if sma20 > sma50, plus the volume bracket (+10
    above 1,000,000, else +5 above 500,000), plus 10 if
    abs(changePercent) > 2. *)
Theorem score_is_clamped_sum (s : ScreenerResult) :
  score (getSwingTradingScore s) = Spec.clamp (Spec.additive s).
Proof. rewrite score_eq, scoreAtLine72_additive. apply clamp_max_min. Qed.

(** C2: the returned signal is exactly one of the five signals, and
    applying the threshold chain to the returned (clamped) score gives it
    back. *)
Theorem signal_from_returned_score (s : ScreenerResult) :
  (exists sg : Spec.Signal,
     signal (getSwingTradingScore s) = Spec.label sg
     /\ forall sg', signal (getSwingTradingScore s) = Spec.label sg' -> sg' = sg)
  /\ signal (getSwingTradingScore s)
     = Spec.label (Spec.classify (score (getSwingTradingScore s))).
Proof.
  rewrite signal_eq, score_eq, classify_clamp, determineSignal_classify.
  split; [|reflexivity].
  eexists. split; [reflexivity|]. intros sg' H. symmetry. exact (label_inj _ _ H).
Qed.

(** C3: the returned score lies in the closed interval [0, 100]. *)
Theorem score_bounded (s : ScreenerResult) :
  0 <= score (getSwingTradingScore s) <= 100.
Proof. rewrite score_eq. unfold Js.max, Js.min. lia. Qed.

(** C4: a score computed strictly between 50 and 65 falls through the
    four branches of the chain, and the default signal HOLD is returned. *)
Theorem gap_is_hold (s : ScreenerResult) :
  50 < scoreAtLine72 s < 65 ->
  signal (getSwingTradingScore s) = Spec.label Spec.HOLD.
Proof.
  intros H. rewrite signal_eq. unfold determineSignal.
  rewrite !Z.geb_leb. branch; solve [reflexivity | exfalso; lia].
Qed.

Lemma gap_is_hold_witness :
  scoreAtLine72 (snapshot 75 110 100 105 600000 1) = 60
  /\ signal (getSwingTradingScore (snapshot 75 110 100 105 600000 1)) = "HOLD".
Proof.
  split; [reflexivity|].
  apply (gap_is_hold (snapshot 75 110 100 105 600000 1)).
  vm_compute. split; reflexivity.
Defined.

(** C5: with every other field fixed, moving the price from a value that
    is not above sma20 to one that is never lowers the returned score. *)
Theorem trend_bonus_monotone (s : ScreenerResult) (p1 p2 : number) :
  (p1 >? sma20 s)%js = false ->
  (p2 >? sma20 s)%js = true ->
  score (getSwingTradingScore (withPrice p1 s))
  <= score (getSwingTradingScore (withPrice p2 s)).
Proof.
  intros H1 H2. rewrite !score_eq.
  assert (scoreAtLine72 (withPrice p1 s) <= scoreAtLine72 (withPrice p2 s))
    as Hraw.
  { pose proof (gt_carries_over p1 p2 (sma20 s) (sma50 s) H1 H2) as H3.
    unfold scoreAtLine72, withPrice; simpl. rewrite H1, H2.
    destruct (p1 >? sma50 s)%js; [rewrite H3 by reflexivity|]; branch; lia. }
  unfold Js.max, Js.min. lia.
Qed.

Lemma trend_bonus_monotone_witness :
  score (getSwingTradingScore (withPrice (#90) (snapshot 75 0 100 95 0 0)))
  <= score (getSwingTradingScore (withPrice (#110) (snapshot 75 0 100 95 0 0))).
Proof.
  apply (trend_bonus_monotone (snapshot 75 0 100 95 0 0) (#90) (#110));
    reflexivity.
Defined.

(** ** The table *)

(** C6: the ranked sequence has the length of the input and lists the
    same symbols in the same order; indeed its first components are the
    input itself, so nothing is reordered by score. *)
Theorem rank_preserves_order (results : list ScreenerResult) :
  length (rank results) = length results
  /\ (symbol ∘ fst) <$> rank results = symbol <$> results
  /\ fst <$> rank results = results
  /\ snd <$> rank results = getSwingTradingScore <$> results.
Proof.
  rewrite rank_fmap. repeat split.
  - apply length_fmap.
  - rewrite <- list_fmap_compose. reflexivity.
  - rewrite <- list_fmap_compose. apply list_fmap_id.
  - rewrite <- list_fmap_compose. reflexivity.
Qed.

(** C8: the empty sequence of results is ranked to the empty sequence. *)
Theorem rank_empty : tableBody [] = [] /\ rank [] = [].
Proof. split; reflexivity. Qed.

(** ** What the adjustments can add up to *)

(** C9: the returned score is a multiple of 5 between 30 and 100; the sum
    before clamping is between 30 and 140, so only the upper clamp can
    take effect. *)
Theorem score_multiple_of_five (s : ScreenerResult) :
  (exists k, score (getSwingTradingScore s) = 5 * k)
  /\ 30 <= score (getSwingTradingScore s) <= 100
  /\ 30 <= scoreAtLine72 s <= 140
  /\ score (getSwingTradingScore s) = Js.min 100 (scoreAtLine72 s).
Proof.
  rewrite score_eq. unfold Js.max, Js.min.
  destruct (scoreAtLine72_range s) as [Hrange [k Hk]].
  repeat split; try lia.
  destruct (Z.le_gt_cases (scoreAtLine72 s) 100).
  - exists k. lia.
  - exists 20. lia.
Qed.

(** C10, amended: for a result whose rsi is a number (not NaN), SELL is
    returned only if rsi > 70.  For every result, whenever rsi <= 70 the
    rsi bracket adds at least 20, the returned score is at least 70 and
    the signal is not SELL. *)
Theorem sell_only_when_overbought (s : ScreenerResult) :
  ((rsi s <=? #70)%js = true ->
   20 <= Spec.rsiAdjustment (rsi s)
   /\ 70 <= score (getSwingTradingScore s)
   /\ signal (getSwingTradingScore s) <> Spec.label Spec.SELL)
  /\ (rsi s <> NaN ->
      signal (getSwingTradingScore s) = Spec.label Spec.SELL ->
      (rsi s >? #70)%js = true).
Proof.
  assert ((rsi s <=? #70)%js = true ->
          20 <= Spec.rsiAdjustment (rsi s)
          /\ 70 <= score (getSwingTradingScore s)
          /\ signal (getSwingTradingScore s) <> Spec.label Spec.SELL) as Hle.
  { intros Hle.
    assert (20 <= Spec.rsiAdjustment (rsi s)) as Hadj.
    { unfold Spec.rsiAdjustment. rewrite Hle, andb_true_r.
      destruct (#30 <=? rsi s)%js eqn:Hge; [lia|].
      rewrite (lt_of_not_ge (rsi s) (#30)); [lia| |discriminate|exact Hge].
      intros Hnan. rewrite Hnan in Hle. discriminate. }
    assert (70 <= scoreAtLine72 s) as Hraw.
    { rewrite scoreAtLine72_additive. unfold Spec.additive.
      unfold Spec.volumeAdjustment, Spec.bonus. branch; lia. }
    split; [exact Hadj|]. rewrite score_eq, signal_eq. split.
    - unfold Js.max, Js.min. lia.
    - unfold determineSignal. rewrite !Z.geb_leb.
      branch; simpl; solve [discriminate | exfalso; lia]. }
  split; [exact Hle|]. intros Hnum Hsell.
  destruct (rsi s <=? #70)%js eqn:H70.
  - destruct (Hle eq_refl) as (_ & _ & Hne). contradiction.
  - apply gt_of_not_le; [exact Hnum|discriminate|exact H70].
Qed.

Lemma sell_only_when_overbought_witness :
  signal (getSwingTradingScore (snapshot 45 90 95 100 100000 0)) <> "SELL"
  /\ (rsi (snapshot 75 90 95 100 100000 0) >? #70)%js = true.
Proof.
  split.
  - apply (sell_only_when_overbought (snapshot 45 90 95 100 100000 0)).
    reflexivity.
  - apply (sell_only_when_overbought (snapshot 75 90 95 100 100000 0)).
    + discriminate.
    + reflexivity.
Defined.

(** C10 as stated, for every result, fails: with an rsi that is not a
    number neither bracket matches, the 20 points are taken off and SELL
    is returned although rsi > 70 is false. *)
Lemma sell_with_nan_rsi :
  getSwingTradingScore nanRsiResult
  = {| score := 30; signal := "SELL"; color := "text-danger-400" |}
  /\ (rsi nanRsiResult >? #70)%js = false
  /\ ~ (signal (getSwingTradingScore nanRsiResult) = Spec.label Spec.SELL ->
        (rsi nanRsiResult >? #70)%js = true).
Proof.
  split; [reflexivity|]. split; [reflexivity|].
  intros H. specialize (H eq_refl). discriminate H.
Qed.

(** An rsi that is not a number matches neither bracket and is penalised
    like an overbought one: this is the one way to a SELL signal without
    rsi > 70. *)
Lemma nan_rsi_takes_the_penalty (s : ScreenerResult) :
  rsi s = NaN -> Spec.rsiAdjustment (rsi s) = -20.
Proof. intros ->. reflexivity. Qed.

(** ** More on comparisons *)

Lemma gt_irrefl (a : number) : (a >? a)%js = false.
Proof.
  unfold Js.gt. destruct a as [| |x|]; simpl; try reflexivity.
  apply Qlt_bool_false. apply Qle_refl.
Qed.

Lemma gt_trans (a b c : number) :
  (a >? b)%js = true -> (b >? c)%js = true -> (a >? c)%js = true.
Proof.
  intros Hab Hbc. exact (gt_carries_over b a b c (gt_irrefl b) Hab Hbc).
Qed.

Lemma lt_not_ge (a b : number) :
  (a <? b)%js = true -> (a >=? b)%js = false.
Proof.
  unfold Js.ge. destruct a as [| |x|], b as [| |y|]; simpl; try congruence.
  unfold Js.Qlt_bool. apply negb_true_iff.
Qed.

Lemma gt_not_le (a b : number) :
  (a >? b)%js = true -> (a <=? b)%js = false.
Proof.
  unfold Js.gt. destruct a as [| |x|], b as [| |y|]; simpl; try congruence.
  unfold Js.Qlt_bool. apply negb_true_iff.
Qed.

Lemma gt_not_lt (a b c : number) :
  (a >? b)%js = true -> (c <=? b)%js = true -> (a <? c)%js = false.
Proof.
  unfold Js.gt.
  destruct a as [| |x|], b as [| |y|], c as [| |z|]; simpl; try congruence.
  rewrite Qlt_bool_iff, Qle_bool_iff, Qlt_bool_false. intros H1 H2.
  apply Qlt_le_weak. eapply Qle_lt_trans; eassumption.
Qed.

(** Being above something is kept by whatever is at least as large. *)
Lemma gt_le_mono (p1 p2 a : number) :
  (p1 <=? p2)%js = true -> (p1 >? a)%js = true -> (p2 >? a)%js = true.
Proof.
  unfold Js.gt.
  destruct p1 as [| |x1|], p2 as [| |x2|], a as [| |xa|]; simpl; try congruence.
  rewrite Qle_bool_iff, !Qlt_bool_iff. intros H1 H2.
  eapply Qlt_le_trans; eassumption.
Qed.

Lemma abs_negate (a : number) : Js.abs (negate a) = Js.abs a.
Proof.
  destruct a as [| |[n d]|]; simpl; try reflexivity.
  rewrite Z.abs_opp. reflexivity.
Qed.

Lemma signal_threshold (x : Z) :
  (80 <= x -> determineSignal x = ("STRONG BUY", "text-success-400"))
  /\ (65 <= x -> fst (determineSignal x) = "STRONG BUY"
                 \/ fst (determineSignal x) = "BUY")
  /\ (fst (determineSignal x) = "SELL" <-> x <= 35).
Proof.
  unfold determineSignal. rewrite !Z.geb_leb.
  branch; cbn [fst]; repeat split; intros;
    solve [reflexivity | auto | discriminate | lia | exfalso; lia].
Qed.

Lemma determineSignal_colour (x y : Z) :
  fst (determineSignal x) = fst (determineSignal y)
  <-> snd (determineSignal x) = snd (determineSignal y).
Proof.
  unfold determineSignal. branch; cbn [fst snd];
    split; intros H; solve [reflexivity | discriminate H].
Qed.

(** ** What the score rewards *)

(** X1: an oversold result (rsi < 30) is rated STRONG BUY, in the colour
    of a strong buy and with a score of at least 80, whatever its price,
    averages, volume and change are. *)
Theorem oversold_is_strong_buy (s : ScreenerResult) :
  (rsi s <? #30)%js = true ->
  80 <= score (getSwingTradingScore s)
  /\ signal (getSwingTradingScore s) = "STRONG BUY"
  /\ color (getSwingTradingScore s) = "text-success-400".
Proof.
  intros H.
  assert (80 <= scoreAtLine72 s) as Hraw.
  { unfold scoreAtLine72. rewrite (lt_not_ge _ _ H), H. cbn [andb].
    branch; lia. }
  rewrite score_eq, signal_eq, color_eq.
  rewrite (proj1 (signal_threshold _) Hraw).
  unfold Js.max, Js.min. repeat split; [lia|reflexivity..].
Qed.

Lemma oversold_is_strong_buy_witness :
  signal (getSwingTradingScore (snapshot 25 90 95 100 100000 0)) = "STRONG BUY".
Proof.
  apply (oversold_is_strong_buy (snapshot 25 90 95 100 100000 0)).
  reflexivity.
Defined.

(** X2: in a full uptrend (price above sma20 above sma50) the price is
    above sma50 as well, all three trend bonuses are granted, and the
    result is rated BUY or STRONG BUY with a score of at least 70, even
    with an overbought rsi. *)
Theorem uptrend_is_at_least_buy (s : ScreenerResult) :
  (price s >? sma20 s)%js = true ->
  (sma20 s >? sma50 s)%js = true ->
  (price s >? sma50 s)%js = true
  /\ 70 <= score (getSwingTradingScore s)
  /\ (signal (getSwingTradingScore s) = "STRONG BUY"
      \/ signal (getSwingTradingScore s) = "BUY").
Proof.
  intros H1 H2. pose proof (gt_trans _ _ _ H1 H2) as H3.
  assert (70 <= scoreAtLine72 s) as Hraw.
  { unfold scoreAtLine72. rewrite H1, H2, H3. branch; lia. }
  rewrite score_eq, signal_eq. split; [exact H3|]. split.
  - unfold Js.max, Js.min. lia.
  - apply signal_threshold. lia.
Qed.

Lemma uptrend_is_at_least_buy_witness :
  70 <= score (getSwingTradingScore (snapshot 75 110 100 95 100000 0)).
Proof.
  apply (uptrend_is_at_least_buy (snapshot 75 110 100 95 100000 0));
    reflexivity.
Defined.

(** X3: with every other field fixed, a price that is at least as high
    never gets a lower score. *)
Theorem price_monotone (s : ScreenerResult) (p1 p2 : number) :
  (p1 <=? p2)%js = true ->
  score (getSwingTradingScore (withPrice p1 s))
  <= score (getSwingTradingScore (withPrice p2 s)).
Proof.
  intros H. rewrite !score_eq.
  pose proof (gt_le_mono p1 p2 (sma20 s) H) as M20.
  pose proof (gt_le_mono p1 p2 (sma50 s) H) as M50.
  assert (scoreAtLine72 (withPrice p1 s) <= scoreAtLine72 (withPrice p2 s)).
  { unfold scoreAtLine72, withPrice; simpl.
    destruct (p1 >? sma20 s)%js; [rewrite M20 by reflexivity|];
      (destruct (p1 >? sma50 s)%js; [rewrite M50 by reflexivity|]);
      branch; lia. }
  unfold Js.max, Js.min. lia.
Qed.

Lemma price_monotone_witness :
  score (getSwingTradingScore (withPrice (#97) (snapshot 75 0 100 95 0 0)))
  <= score (getSwingTradingScore (withPrice (#110) (snapshot 75 0 100 95 0 0))).
Proof.
  apply (price_monotone (snapshot 75 0 100 95 0 0) (#97) (#110)). reflexivity.
Defined.

(** X4: with every other field fixed, a volume that is at least as high
    never gets a lower score, and gains at most 10 points. *)
Theorem volume_monotone (s : ScreenerResult) (v1 v2 : number) :
  (v1 <=? v2)%js = true ->
  scoreAtLine72 (withVolume v1 s) <= scoreAtLine72 (withVolume v2 s)
                                   <= scoreAtLine72 (withVolume v1 s) + 10
  /\ score (getSwingTradingScore (withVolume v1 s))
     <= score (getSwingTradingScore (withVolume v2 s)).
Proof.
  intros H. rewrite !score_eq.
  pose proof (gt_le_mono v1 v2 (#1000000) H) as M1.
  pose proof (gt_le_mono v1 v2 (#500000) H) as M2.
  assert (scoreAtLine72 (withVolume v1 s) <= scoreAtLine72 (withVolume v2 s)
          <= scoreAtLine72 (withVolume v1 s) + 10) as Hraw.
  { unfold scoreAtLine72, withVolume;
      cbn [rsi price sma20 sma50 volume changePercent].
    destruct (v1 >? #1000000)%js; [rewrite M1 by reflexivity|];
      (destruct (v1 >? #500000)%js; [try rewrite M2 by reflexivity|]);
      branch; lia. }
  split; [exact Hraw|]. unfold Js.max, Js.min. lia.
Qed.

Lemma volume_monotone_witness :
  score (getSwingTradingScore (withVolume (#400000) (snapshot 75 0 100 95 0 0)))
  <= score (getSwingTradingScore (withVolume (#600000) (snapshot 75 0 100 95 0 0))).
Proof.
  apply (volume_monotone (snapshot 75 0 100 95 0 0) (#400000) (#600000)).
  reflexivity.
Defined.

(** X5: the analysis does not see the direction of the move: a change of
    -c percent gets the same score, signal and colour as one of c. *)
Theorem direction_blind (s : ScreenerResult) (c : number) :
  getSwingTradingScore (withChangePercent (negate c) s)
  = getSwingTradingScore (withChangePercent c s).
Proof.
  unfold getSwingTradingScore, scoreAtLine72, withChangePercent;
    cbn [rsi price sma20 sma50 volume changePercent].
  rewrite abs_negate. reflexivity.
Qed.

(** X6: signal and colour go together: two analyses have the same signal
    exactly when they have the same colour. *)
Theorem colour_tells_signal (s1 s2 : ScreenerResult) :
  signal (getSwingTradingScore s1) = signal (getSwingTradingScore s2)
  <-> color (getSwingTradingScore s1) = color (getSwingTradingScore s2).
Proof. rewrite !signal_eq, !color_eq. apply determineSignal_colour. Qed.

(** X7: SELL is returned exactly when the rsi matches neither the healthy
    nor the oversold bracket, none of the three trend conditions holds,
    the volume is not above 1,000,000 and the move is not above 2
    percent. *)
Theorem sell_characterised (s : ScreenerResult) :
  signal (getSwingTradingScore s) = "SELL"
  <-> ((rsi s >=? #30) && (rsi s <=? #70))%js = false
      /\ (rsi s <? #30)%js = false
      /\ (price s >? sma20 s)%js = false
      /\ (price s >? sma50 s)%js = false
      /\ (sma20 s >? sma50 s)%js = false
      /\ (volume s >? #1000000)%js = false
      /\ (Js.abs (changePercent s) >? #2)%js = false.
Proof.
  rewrite signal_eq.
  rewrite (proj2 (proj2 (signal_threshold (scoreAtLine72 s)))).
  unfold scoreAtLine72.
  branch; split;
    solve [ intros; repeat split; solve [reflexivity | exfalso; lia]
          | intros (? & ? & ? & ? & ? & ? & ?); solve [discriminate | lia] ].
Qed.

(** ** The RSI cell *)

Lemma above_70_not_below_30 (x : Q) :
  Qle_bool x (inject_Z 70) = false -> Qle_bool (inject_Z 30) x = true.
Proof.
  rewrite <- not_true_iff_false, !Qle_bool_iff. intros H.
  apply Qlt_le_weak. eapply Qlt_trans; [|apply Qnot_le_lt; exact H].
  reflexivity.
Qed.

(** X8: for an rsi that is a number, the colour of the RSI cell names the
    bracket the score used: red exactly when the 20 points were taken
    off, green exactly when 30 were added, neutral exactly when 20
    were. *)
Theorem rsi_cell_matches_bracket (s : ScreenerResult) :
  rsi s <> NaN ->
  (rsiCellColor s = "text-danger-400" <-> Spec.rsiAdjustment (rsi s) = -20)
  /\ (rsiCellColor s = "text-success-400" <-> Spec.rsiAdjustment (rsi s) = 30)
  /\ (rsiCellColor s = "text-neutral-100" <-> Spec.rsiAdjustment (rsi s) = 20).
Proof.
  intros Hnum. unfold rsiCellColor, Spec.rsiAdjustment.
  destruct (rsi s) as [| |x|]; [contradiction| | |].
  - cbn. repeat split; intros H; solve [reflexivity | discriminate H].
  - unfold Js.gt, Js.lt, Js.le, Js.lit, Js.Qlt_bool.
    pose proof (above_70_not_below_30 x) as Hx.
    destruct (Qle_bool x (inject_Z 70)) eqn:H70;
      destruct (Qle_bool (inject_Z 30) x) eqn:H30; cbn [negb andb];
      try (specialize (Hx eq_refl); discriminate Hx);
      repeat split; intros H; solve [reflexivity | discriminate H].
  - cbn. repeat split; intros H; solve [reflexivity | discriminate H].
Qed.

Lemma rsi_cell_matches_bracket_witness :
  rsiCellColor (snapshot 75 90 95 100 100000 0) = "text-danger-400"
  <-> Spec.rsiAdjustment (rsi (snapshot 75 90 95 100 100000 0)) = -20.
Proof.
  apply (rsi_cell_matches_bracket (snapshot 75 90 95 100 100000 0)).
  discriminate.
Defined.

(** An rsi that is not a number is the exception: the cell stays neutral
    while the score takes the 20 points off. *)
Lemma nan_rsi_cell_is_neutral (s : ScreenerResult) :
  rsi s = NaN ->
  rsiCellColor s = "text-neutral-100" /\ Spec.rsiAdjustment (rsi s) = -20.
Proof. unfold rsiCellColor. intros ->. split; reflexivity. Qed.

(** ** The rows *)

(** X10: the React keys of the rows are 0, 1, ..., n-1 in this order, so
    no two rows share a key. *)
Theorem row_keys_are_indices (results : list ScreenerResult) :
  key <$> tableBody results = seq 0 (length results)
  /\ NoDup (key <$> tableBody results).
Proof.
  assert (key <$> tableBody results = seq 0 (length results)) as H.
  { unfold tableBody. rewrite fmap_imap.
    rewrite <- (list_fmap_id (seq 0 (length results))).
    exact (imap_seq_0 results id). }
  split; [exact H|]. rewrite H. apply NoDup_seq.
Qed.

(** ** Running the screener *)

(** X11: [runScreener] first sets the loading flag, which disables the
    button and replaces the table by five placeholders.  Once the request
    is settled, resolved or rejected, the last effect clears the flag;
    as long as it is pending nothing else happens and the flag stays
    set. *)
Theorem runScreener_settles (getScreenerResults : Filters -> Outcome) (st : State) :
  (exists rest, runScreener getScreenerResults st = SetLoading true :: rest)
  /\ tableView (perform st (SetLoading true)) = Placeholders [0; 1; 2; 3; 4]%nat
  /\ runDisabled (perform st (SetLoading true)) = true
  /\ (getScreenerResults (filters st) <> Pending ->
      last (runScreener getScreenerResults st) = Some (SetLoading false)
      /\ loading (performAll st (runScreener getScreenerResults st)) = false)
  /\ (getScreenerResults (filters st) = Pending ->
      runScreener getScreenerResults st = [SetLoading true]
      /\ loading (performAll st (runScreener getScreenerResults st)) = true).
Proof.
  unfold runScreener, performAll.
  destruct (getScreenerResults (filters st)) as [data|reason|];
    (split; [eexists; reflexivity|]); repeat split;
    solve [reflexivity | intros; congruence | discriminate].
Qed.

Lemma runScreener_settles_witness :
  loading (performAll shownState
             (runScreener (fun _ => Rejected "offline") shownState)) = false
  /\ loading (performAll shownState
                (runScreener (fun _ => Pending) shownState)) = true.
Proof.
  split.
  - destruct (runScreener_settles (fun _ => Rejected "offline") shownState)
      as (_ & _ & _ & H & _).
    apply H. discriminate.
  - destruct (runScreener_settles (fun _ => Pending) shownState)
      as (_ & _ & _ & _ & H).
    apply H. reflexivity.
Defined.

(** X12: when the service fails, the failure is logged once, the results
    are the ones from before, and the table shows them again once loading
    is over. *)
Theorem failure_keeps_results
    (getScreenerResults : Filters -> Outcome) (st : State) (reason : string) :
  getScreenerResults (filters st) = Rejected reason ->
  logged (runScreener getScreenerResults st) = [reason]
  /\ results (performAll st (runScreener getScreenerResults st)) = results st
  /\ tableView (performAll st (runScreener getScreenerResults st))
     = Rows (tableBody (results st)).
Proof.
  intros H. unfold runScreener, performAll. rewrite H. repeat split.
Qed.

Lemma failure_keeps_results_witness :
  results (performAll shownState
             (runScreener (fun _ => Rejected "offline") shownState))
  = [snapshot 45 110 100 95 2000000 3; snapshot 75 90 95 100 100000 0].
Proof.
  apply (failure_keeps_results (fun _ => Rejected "offline") shownState
           "offline").
  reflexivity.
Defined.



(** X14: if the first request, made on mount with the empty filters,
    fails, the component ends up with an empty table under a header that
    counts 0 results, and it is not left loading. *)
Theorem failed_first_load_is_empty
    (getScreenerResults : Filters -> Outcome) (reason : string) :
  getScreenerResults initialFilters = Rejected reason ->
  tableView (mount getScreenerResults) = Rows []
  /\ headerCount (mount getScreenerResults) = 0%nat
  /\ runDisabled (mount getScreenerResults) = false.
Proof.
  intros H. unfold mount, runScreener, performAll, headerCount.
  cbn [filters initialState]. rewrite H. repeat split.
Qed.

Lemma failed_first_load_is_empty_witness :
  tableView (mount (fun _ => Rejected "offline")) = Rows [].
Proof.
  apply (failed_first_load_is_empty (fun _ => Rejected "offline") "offline").
  reflexivity.
Defined.

(** ** More on what the score rewards *)

(** X15: an rsi that matches the healthy bracket [30, 70] or the
    oversold bracket (< 30) is enough for a score of at least 70 and a
    rating of BUY or STRONG BUY; conversely HOLD, WEAK and SELL are only
    given to results whose rsi matched neither bracket. *)
Theorem matched_rsi_is_at_least_buy (s : ScreenerResult) :
  (((rsi s >=? #30) && (rsi s <=? #70))%js = true \/ (rsi s <? #30)%js = true ->
   70 <= score (getSwingTradingScore s)
   /\ (signal (getSwingTradingScore s) = "STRONG BUY"
       \/ signal (getSwingTradingScore s) = "BUY"))
  /\ (signal (getSwingTradingScore s) = "HOLD"
      \/ signal (getSwingTradingScore s) = "WEAK"
      \/ signal (getSwingTradingScore s) = "SELL" ->
      ((rsi s >=? #30) && (rsi s <=? #70))%js = false
      /\ (rsi s <? #30)%js = false).
Proof.
  assert (((rsi s >=? #30) && (rsi s <=? #70))%js = true
          \/ (rsi s <? #30)%js = true ->
          70 <= score (getSwingTradingScore s)
          /\ (signal (getSwingTradingScore s) = "STRONG BUY"
              \/ signal (getSwingTradingScore s) = "BUY")) as Hmatched.
  { intros H.
    assert (70 <= scoreAtLine72 s) as Hraw.
    { unfold scoreAtLine72.
      branch; try lia; destruct H as [H|H]; congruence. }
    rewrite score_eq, signal_eq. split.
    - unfold Js.max, Js.min. lia.
    - apply signal_threshold. lia. }
  split; [exact Hmatched|]. intros Hlow.
  destruct ((rsi s >=? #30) && (rsi s <=? #70))%js eqn:Hin;
    [|destruct (rsi s <? #30)%js eqn:Hlt; [|split; reflexivity]];
    (destruct Hmatched as [_ [Hs|Hs]]; [auto|..];
     rewrite Hs in Hlow; destruct Hlow as [Hl|[Hl|Hl]]; discriminate Hl).
Qed.

Lemma matched_rsi_is_at_least_buy_witness :
  70 <= score (getSwingTradingScore (snapshot 30 90 95 100 100000 0))
  /\ 70 <= score (getSwingTradingScore (snapshot 25 90 95 100 100000 0)).
Proof.
  split.
  - destruct (matched_rsi_is_at_least_buy (snapshot 30 90 95 100 100000 0))
      as [H _].
    apply H. left. reflexivity.
  - destruct (matched_rsi_is_at_least_buy (snapshot 25 90 95 100 100000 0))
      as [H _].
    apply H. right. reflexivity.
Defined.

Lemma above_sma50_has_company (p a b : number) :
  a <> NaN ->
  (p >? b)%js = true -> (p >? a)%js = false -> (a >? b)%js = true.
Proof.
  unfold Js.gt.
  destruct p as [| |x|], a as [| |y|], b as [| |z|]; simpl;
    try congruence.
  intros _. rewrite Qlt_bool_false, !Qlt_bool_iff. intros H1 H2.
  eapply Qlt_le_trans; eassumption.
Qed.

(** X16: the three trend conditions are not independent.  With an sma20
    that is a number, a price above sma50 is above sma20 or has sma20
    above sma50, and a price above sma20 above sma50 is above sma50: the
    trend bonuses add up to 0, 15, 25 or 40 points, never to 10 or 30. *)
Theorem trend_points (s : ScreenerResult) :
  sma20 s <> NaN ->
  ((price s >? sma50 s)%js = true ->
   (price s >? sma20 s)%js = true \/ (sma20 s >? sma50 s)%js = true)
  /\ (Spec.bonus (price s >? sma20 s)%js 15
      + Spec.bonus (price s >? sma50 s)%js 10
      + Spec.bonus (sma20 s >? sma50 s)%js 15
      ∈ [0; 15; 25; 40]).
Proof.
  intros Hnum.
  pose proof (above_sma50_has_company (price s) (sma20 s) (sma50 s) Hnum) as H1.
  pose proof (gt_trans (price s) (sma20 s) (sma50 s)) as H2.
  unfold Spec.bonus.
  destruct (price s >? sma20 s)%js, (price s >? sma50 s)%js,
    (sma20 s >? sma50 s)%js;
    try (specialize (H1 eq_refl eq_refl); discriminate H1);
    try (specialize (H2 eq_refl eq_refl); discriminate H2);
    (split; [intros H; solve [auto | discriminate H]|]); cbn;
    solve [repeat constructor].
Qed.

Lemma trend_points_witness :
  Spec.bonus (price (snapshot 75 97 100 95 0 0)
              >? sma20 (snapshot 75 97 100 95 0 0))%js 15
  + Spec.bonus (price (snapshot 75 97 100 95 0 0)
                >? sma50 (snapshot 75 97 100 95 0 0))%js 10
  + Spec.bonus (sma20 (snapshot 75 97 100 95 0 0)
                >? sma50 (snapshot 75 97 100 95 0 0))%js 15
  ∈ [0; 15; 25; 40].
Proof.
  apply (trend_points (snapshot 75 97 100 95 0 0)). discriminate.
Defined.
